(** * Virtual repository schema and mapper

  A shallow embedding of
  [pkg/artifactory/resource/repository/virtual/virtual.go]: the parameter
  structs sent to the Artifactory API, the two package-type tables, the
  attribute descriptor table [BaseVirtualRepoSchema] and the two unpack
  functions.

  Go values are modelled as the code has them: [string] as [string], [bool]
  as [bool], [int] as [Z] (the code only stores and compares integers, it
  does no arithmetic on them), and [[]string] as [option (list string)]
  where [None] is the nil slice.  The Go map holding the descriptors is a
  [gmap string Schema] built from the entries of the map literal. *)

From Stdlib Require Import ZArith Lia.
From stdpp Require Import base option list strings gmap sets.

#[local] Set Warnings "-register-all".

Local Open Scope string_scope.
Local Open Scope Z_scope.
Local Open Scope list_scope.

(** ** Go values *)

Module Go.

(** A Go [[]string]: [None] is the nil slice, [Some l] a slice with the
    elements of [l] ([Some []] is empty and not nil). *)
Definition slice : Type := option (list string).

Definition len (s : slice) : nat :=
  match s with None => 0%nat | Some l => length l end.

(** The dynamic values the file moves around behind [interface{}]:
    descriptor defaults, raw configuration values and struct fields seen
    through reflection. *)
Inductive value : Type :=
| VString (s : string)
| VBool (b : bool)
| VInt (n : Z)
| VStrings (s : slice).

(** The zero value of each type: the empty string, [false], [0], nil. *)
Definition IsZero (v : value) : bool :=
  match v with
  | VString s => bool_decide (s = "")
  | VBool b => negb b
  | VInt n => n =? 0
  | VStrings None => true
  | VStrings (Some _) => false
  end.

(** The line feed that Go writes [\n] inside a string literal. *)
Definition LF : string := String (Ascii.ascii_of_nat 10) EmptyString.

(** The double quote inside a Go raw string literal. *)
Definition DQ : string := String (Ascii.ascii_of_nat 34) EmptyString.

End Go.

Export Go(slice, value, VString, VBool, VInt, VStrings).

(** ** The descriptor type of the plugin SDK

  [schema.Schema] of terraform-plugin-sdk, with the fields that the
  descriptor table sets.  A field that a composite literal leaves out holds
  its zero value: [false], [0], [None] for a nil interface, pointer or
  function. *)

Module schema.

Inductive ValueType : Type :=
| TypeInvalid | TypeBool | TypeInt | TypeFloat | TypeString
| TypeList | TypeMap | TypeSet.

(** [SchemaSetFunc]: the hash of a set element. *)
Definition SchemaSetFunc : Type := value -> Z.

(** [SchemaValidateFunc]: the value and its key to warnings and errors. *)
Definition SchemaValidateFunc : Type :=
  value -> string -> list string * list string.

(** [SchemaValidateDiagFunc]: the value to its diagnostics; the empty list
    accepts. *)
Definition SchemaValidateDiagFunc : Type := value -> list string.

Inductive Schema : Type := mkSchema {
  Type_ : ValueType;
  Optional : bool;
  Required : bool;
  Computed : bool;
  ForceNew : bool;
  Default : option value;
  Elem : option Schema;
  MaxItems : Z;
  Set_ : option SchemaSetFunc;
  ValidateFunc : option SchemaValidateFunc;
  ValidateDiagFunc : option SchemaValidateDiagFunc;
  Description : string;
}.

(** The zero value [schema.Schema{}]. *)
Definition zero : Schema :=
  {| Type_ := TypeInvalid; Optional := false; Required := false;
     Computed := false; ForceNew := false; Default := None; Elem := None;
     MaxItems := 0; Set_ := None; ValidateFunc := None;
     ValidateDiagFunc := None; Description := "" |}.

(** The zero value that an attribute of each type reads as when nothing
    sets it. *)
Definition ZeroValue (t : ValueType) : value :=
  match t with
  | TypeBool => VBool false
  | TypeInt => VInt 0
  | TypeList | TypeSet => VStrings None
  | _ => VString ""
  end.

End schema.

Export schema(Schema, TypeBool, TypeInt, TypeString, TypeList, TypeSet).

(** ** The SDK's validation helper *)

Module validation.

(** Modelled from the spec: [validation.IntAtLeast] of the plugin SDK, which
    is not part of this repository.  The spec gives its contract for the one
    use the table makes of it: the value must be at least [min], and a
    smaller one is rejected at validation time.  A value that is no integer
    is rejected as well. *)
Definition IntAtLeast (min : Z) : schema.SchemaValidateFunc :=
  fun i k =>
    match i with
    | VInt v =>
        if v <? min
        then ([], [("expected " ++ k ++ " to be at least the minimum")%string])
        else ([], [])
    | _ => ([], [("expected type of " ++ k ++ " to be integer")%string])
    end.

End validation.

(** ** The accessor the mapper reads through

    [util.ResourceData] (terraform-provider-shared) wraps the SDK's
    [*schema.ResourceData] and offers typed reads by attribute name.  It is
    not part of this repository, so the mapper is stated over any
    implementation of the five reads it calls.  The [bool] of [GetString],
    [GetBool] and [GetInt] is the flag [onlyIfChanged]. *)

Module util.

Class ResourceData (D : Type) : Type := {
  GetString : D -> string -> bool -> string;
  GetBool : D -> string -> bool -> bool;
  GetInt : D -> string -> bool -> Z;
  GetSet : D -> string -> slice;
  GetList : D -> string -> slice;
}.

End util.

(** ** Serialization with [encoding/json]

    [json.Marshal] of a struct value walks the fields in declaration order,
    the fields of an embedded struct in place of it.  A field is written
    under the name of its [json] tag; with the option [omitempty] it is left
    out when its value is empty: [false], [0], and a string or slice of
    length zero.  A nil slice that is written is written as [null].  A
    [Value] is the value that the text written denotes. *)

Module json.

Inductive Value : Type :=
| Null
| Bool (b : bool)
| Number (n : Z)
| Str (s : string)
| Array (l : list Value)
| Object (members : list (string * Value)).

(** One struct field as reflection sees it: the tag's name, its [omitempty]
    option and the value held. *)
Record field : Type := mkField {
  name : string;
  omitempty : bool;
  val : value;
}.

Definition isEmptyValue (v : value) : bool :=
  match v with
  | VString s => bool_decide (String.length s = 0%nat)
  | VBool b => negb b
  | VInt n => n =? 0
  | VStrings s => bool_decide (Go.len s = 0%nat)
  end.

(** A string is written coerced to valid UTF-8: the marshaller decodes it
    rune by rune as [utf8.DecodeRuneInString] does and writes the
    replacement rune U+FFFD (the bytes EF BF BD) for every byte at which no
    valid encoding starts.  The escapes it writes besides (quotes, control
    characters, HTML characters) spell the same string and do not show in
    the value. *)
Definition byte (a : Ascii.ascii) : N := Ascii.N_of_ascii a.

Definition between (lo hi : N) (a : Ascii.ascii) : bool :=
  ((lo <=? byte a) && (byte a <=? hi))%N.

(** A continuation byte, 80 to BF. *)
Definition cont (a : Ascii.ascii) : bool := between 128 191 a.

(** For a leading byte of a rune of several bytes: how many bytes follow it
    and the range of the first of them (the ranges exclude overlong forms,
    surrogates and runes past U+10FFFF).  [None] for a byte that leads no
    such rune. *)
Definition lead (a : Ascii.ascii) : option (nat * N * N) :=
  let b := byte a in
  (if (194 <=? b) && (b <=? 223) then Some (1%nat, 128, 191)
   else if b =? 224 then Some (2%nat, 160, 191)
   else if ((225 <=? b) && (b <=? 236)) || ((238 <=? b) && (b <=? 239))
        then Some (2%nat, 128, 191)
   else if b =? 237 then Some (2%nat, 128, 159)
   else if b =? 240 then Some (3%nat, 144, 191)
   else if (241 <=? b) && (b <=? 243) then Some (3%nat, 128, 191)
   else if b =? 244 then Some (3%nat, 128, 143)
   else None)%N.

Definition RuneError : string :=
  String (Ascii.ascii_of_N 239)
    (String (Ascii.ascii_of_N 191)
       (String (Ascii.ascii_of_N 189) EmptyString)).

Fixpoint coerce (s : string) : string :=
  match s with
  | EmptyString => EmptyString
  | String b0 r0 =>
      let invalid := (RuneError ++ coerce r0)%string in
      if (byte b0 <? 128)%N then String b0 (coerce r0)
      else
        match lead b0, r0 with
        | Some (n, lo, hi), String b1 r1 =>
            if between lo hi b1 then
              match n, r1 with
              | 1%nat, _ => String b0 (String b1 (coerce r1))
              | 2%nat, String b2 r2 =>
                  if cont b2
                  then String b0 (String b1 (String b2 (coerce r2)))
                  else invalid
              | 3%nat, String b2 (String b3 r3) =>
                  if cont b2 && cont b3
                  then String b0
                         (String b1 (String b2 (String b3 (coerce r3))))
                  else invalid
              | _, _ => invalid
              end
            else invalid
        | _, _ => invalid
        end
  end.

Definition encode (v : value) : Value :=
  match v with
  | VString s => Str (coerce s)
  | VBool b => Bool b
  | VInt n => Number n
  | VStrings None => Null
  | VStrings (Some l) => Array (Str <$> (coerce <$> l))
  end.

Definition emit (f : field) : list (string * Value) :=
  if omitempty f && isEmptyValue (val f) then []
  else [(name f, encode (val f))].

Definition members (fs : list field) : list (string * Value) :=
  mbind emit fs.

Definition Marshal (fs : list field) : Value := Object (members fs).

(** The member of an object under a name, [None] when the object has none. *)
Fixpoint assoc (k : string) (ms : list (string * Value)) : option Value :=
  match ms with
  | [] => None
  | (k', v) :: ms' => if decide (k = k') then Some v else assoc k ms'
  end.

Definition member (k : string) (j : Value) : option Value :=
  match j with
  | Object ms => assoc k ms
  | _ => None
  end.

End json.

(** ** Package [virtual] *)

Record VirtualRepositoryBaseParams : Type := {
  Key : string;
  ProjectKey : string;
  ProjectEnvironments : slice;
  Rclass : string;
  PackageType : string;
  Description : string;
  Notes : string;
  IncludesPattern : string;
  ExcludesPattern : string;
  RepoLayoutRef : string;
  Repositories : slice;
  ArtifactoryRequestsCanRetrieveRemoteArtifacts : bool;
  DefaultDeploymentRepo : string;
}.

(** The embedded struct is the field [Base]; Go promotes its fields. *)
Record VirtualRepositoryBaseParamsWithRetrievalCachePeriodSecs : Type := {
  Base : VirtualRepositoryBaseParams;
  VirtualRetrievalCachePeriodSecs : Z;
}.

Definition Id (bp : VirtualRepositoryBaseParams) : string := Key bp.

(** The [json] tags of [VirtualRepositoryBaseParams], field by field. *)
Definition VirtualRepositoryBaseParams_fields
    (bp : VirtualRepositoryBaseParams) : list json.field :=
  [ json.mkField "key" true (VString (Key bp));
    json.mkField "projectKey" false (VString (ProjectKey bp));
    json.mkField "environments" false (VStrings (ProjectEnvironments bp));
    json.mkField "rclass" false (VString (Rclass bp));
    json.mkField "packageType" true (VString (PackageType bp));
    json.mkField "description" true (VString (Description bp));
    json.mkField "notes" true (VString (Notes bp));
    json.mkField "includesPattern" true (VString (IncludesPattern bp));
    json.mkField "excludesPattern" true (VString (ExcludesPattern bp));
    json.mkField "repoLayoutRef" true (VString (RepoLayoutRef bp));
    json.mkField "repositories" true (VStrings (Repositories bp));
    json.mkField "artifactoryRequestsCanRetrieveRemoteArtifacts" true
      (VBool (ArtifactoryRequestsCanRetrieveRemoteArtifacts bp));
    json.mkField "defaultDeploymentRepo" true
      (VString (DefaultDeploymentRepo bp)) ].

(** The tags of the struct with the cache period: the promoted fields, then
    its own. *)
Definition VirtualRepositoryBaseParamsWithRetrievalCachePeriodSecs_fields
    (p : VirtualRepositoryBaseParamsWithRetrievalCachePeriodSecs)
    : list json.field :=
  VirtualRepositoryBaseParams_fields (Base p) ++
  [ json.mkField "virtualRetrievalCachePeriodSecs" false
      (VInt (VirtualRetrievalCachePeriodSecs p)) ].

Definition VirtualRepoTypesLikeGeneric : list string :=
  [ "docker"; "gems"; "generic"; "gitlfs"; "composer"; "p2"; "pub";
    "puppet"; "pypi" ].

Definition VirtualRepoTypesLikeGenericWithRetrievalCachePeriodSecs
    : list string :=
  [ "chef"; "conan"; "conda"; "cran"; "npm" ].

(** The descriptor table and the mapper call three functions of other
    packages.  [validator.ProjectKey] (terraform-provider-shared) and
    [schema.HashString] (the SDK) are outside this repository;
    [repository.ValidateRepoLayoutRefSchemaOverride] and
    [repository.HandleResetWithNonExistantValue] are declared in a sibling
    package.  The table only stores the first three, and the mapper stores
    what the fourth returns, so all four are parameters here. *)

Section virtual.

Context {D : Type} `{!util.ResourceData D}.

Variable validator_ProjectKey : schema.SchemaValidateDiagFunc.
Variable repository_ValidateRepoLayoutRefSchemaOverride
  : schema.SchemaValidateDiagFunc.
Variable schema_HashString : schema.SchemaSetFunc.
Variable repository_HandleResetWithNonExistantValue : D -> string -> string.

(** The entries of the map literal, in the order of the source. *)
Definition BaseVirtualRepoSchema_entries : list (string * Schema) :=
  [ ("key",
     {| schema.Type_ := TypeString; schema.Required := true;
        schema.ForceNew := true;
        schema.Description := "The Repository Key. A mandatory identifier for the repository and must be unique. It cannot begin with a number or contain spaces or special characters. For local repositories, we recommend using a '-local' suffix (e.g. 'libs-release-local').";
        schema.Optional := false; schema.Computed := false;
        schema.Default := None; schema.Elem := None; schema.MaxItems := 0;
        schema.Set_ := None; schema.ValidateFunc := None;
        schema.ValidateDiagFunc := None |});
    ("project_key",
     {| schema.Type_ := TypeString; schema.Optional := true;
        schema.ValidateDiagFunc := Some validator_ProjectKey;
        schema.Description := "Project key for assigning this repository to. Must be 3 - 10 lowercase alphanumeric characters. When assigning repository to a project, repository key must be prefixed with project key, separated by a dash.";
        schema.Required := false; schema.Computed := false;
        schema.ForceNew := false; schema.Default := None;
        schema.Elem := None; schema.MaxItems := 0; schema.Set_ := None;
        schema.ValidateFunc := None |});
    ("project_environments",
     {| schema.Type_ := TypeSet;
        schema.Elem :=
          Some (schema.mkSchema TypeString false false false false None None
                  0 None None None "");
        schema.MaxItems := 2;
        schema.Set_ := Some schema_HashString;
        schema.Optional := true;
        schema.Description := "Project environment for assigning this repository to. Allow values: " ++ Go.DQ ++ "DEV" ++ Go.DQ ++ " or " ++ Go.DQ ++ "PROD" ++ Go.DQ;
        schema.Required := false; schema.Computed := false;
        schema.ForceNew := false; schema.Default := None;
        schema.ValidateFunc := None; schema.ValidateDiagFunc := None |});
    ("package_type",
     {| schema.Type_ := TypeString; schema.Required := false;
        schema.Computed := true; schema.ForceNew := true;
        schema.Description := "The Package Type. This must be specified when the repository is created, and once set, cannot be changed.";
        schema.Optional := false; schema.Default := None;
        schema.Elem := None; schema.MaxItems := 0; schema.Set_ := None;
        schema.ValidateFunc := None; schema.ValidateDiagFunc := None |});
    ("description",
     {| schema.Type_ := TypeString; schema.Optional := true;
        schema.Description := "A free text field that describes the content and purpose of the repository." ++ Go.LF ++ "If you choose to insert a link into this field, clicking the link will prompt the user to confirm that they might be redirected to a new domain.";
        schema.Required := false; schema.Computed := false;
        schema.ForceNew := false; schema.Default := None;
        schema.Elem := None; schema.MaxItems := 0; schema.Set_ := None;
        schema.ValidateFunc := None; schema.ValidateDiagFunc := None |});
    ("notes",
     {| schema.Type_ := TypeString; schema.Optional := true;
        schema.Description := "A free text field to add additional notes about the repository. These are only visible to the administrator.";
        schema.Required := false; schema.Computed := false;
        schema.ForceNew := false; schema.Default := None;
        schema.Elem := None; schema.MaxItems := 0; schema.Set_ := None;
        schema.ValidateFunc := None; schema.ValidateDiagFunc := None |});
    ("includes_pattern",
     {| schema.Type_ := TypeString; schema.Optional := true;
        schema.Default := Some (VString "**/*");
        schema.Description := "List of artifact patterns to include when evaluating artifact requests in the form of x/y/**/z/*. " ++ "When used, only artifacts matching one of the include patterns are served. By default, all artifacts are included (**/*).";
        schema.Required := false; schema.Computed := false;
        schema.ForceNew := false; schema.Elem := None;
        schema.MaxItems := 0; schema.Set_ := None;
        schema.ValidateFunc := None; schema.ValidateDiagFunc := None |});
    ("excludes_pattern",
     {| schema.Type_ := TypeString; schema.Optional := true;
        schema.Description := "List of artifact patterns to exclude when evaluating artifact requests, in the form of x/y/**/z/*." ++ "By default no artifacts are excluded.";
        schema.Required := false; schema.Computed := false;
        schema.ForceNew := false; schema.Default := None;
        schema.Elem := None; schema.MaxItems := 0; schema.Set_ := None;
        schema.ValidateFunc := None; schema.ValidateDiagFunc := None |});
    ("repo_layout_ref",
     {| schema.Type_ := TypeString; schema.Optional := true;
        schema.ValidateDiagFunc :=
          Some repository_ValidateRepoLayoutRefSchemaOverride;
        schema.Description := "Sets the layout that the repository should use for storing and identifying modules. A recommended layout that corresponds to the package type defined is suggested, and index packages uploaded and calculate metadata accordingly.";
        schema.Required := false; schema.Computed := false;
        schema.ForceNew := false; schema.Default := None;
        schema.Elem := None; schema.MaxItems := 0; schema.Set_ := None;
        schema.ValidateFunc := None |});
    ("repositories",
     {| schema.Type_ := TypeList;
        schema.Elem :=
          Some (schema.mkSchema TypeString false false false false None None
                  0 None None None "");
        schema.Optional := true;
        schema.Description := "The effective list of actual repositories included in this virtual repository.";
        schema.Required := false; schema.Computed := false;
        schema.ForceNew := false; schema.Default := None;
        schema.MaxItems := 0; schema.Set_ := None;
        schema.ValidateFunc := None; schema.ValidateDiagFunc := None |});
    ("artifactory_requests_can_retrieve_remote_artifacts",
     {| schema.Type_ := TypeBool; schema.Optional := true;
        schema.Default := Some (VBool false);
        schema.Description := "Whether the virtual repository should search through remote repositories when trying to resolve an artifact requested by another Artifactory instance.";
        schema.Required := false; schema.Computed := false;
        schema.ForceNew := false; schema.Elem := None;
        schema.MaxItems := 0; schema.Set_ := None;
        schema.ValidateFunc := None; schema.ValidateDiagFunc := None |});
    ("default_deployment_repo",
     {| schema.Type_ := TypeString; schema.Optional := true;
        schema.Description := "Default repository to deploy artifacts.";
        schema.Required := false; schema.Computed := false;
        schema.ForceNew := false; schema.Default := None;
        schema.Elem := None; schema.MaxItems := 0; schema.Set_ := None;
        schema.ValidateFunc := None; schema.ValidateDiagFunc := None |});
    ("retrieval_cache_period_seconds",
     {| schema.Type_ := TypeInt; schema.Optional := true;
        schema.Default := Some (VInt 7200);
        schema.Description := "This value refers to the number of seconds to cache metadata files before checking for newer versions on aggregated repositories. A value of 0 indicates no caching.";
        schema.ValidateFunc := Some (validation.IntAtLeast 0);
        schema.Required := false; schema.Computed := false;
        schema.ForceNew := false; schema.Elem := None;
        schema.MaxItems := 0; schema.Set_ := None;
        schema.ValidateDiagFunc := None |}) ].

(** The Go map: each name bound to its descriptor. *)
Definition BaseVirtualRepoSchema : gmap string Schema :=
  list_to_map BaseVirtualRepoSchema_entries.

Definition UnpackBaseVirtRepo (s : D) (packageType : string)
    : VirtualRepositoryBaseParams :=
  let d := s in
  {| Key := util.GetString d "key" false;
     Rclass := "virtual";
     ProjectKey := util.GetString d "project_key" false;
     ProjectEnvironments := util.GetSet d "project_environments";
     PackageType := packageType;
     IncludesPattern := util.GetString d "includes_pattern" false;
     ExcludesPattern := util.GetString d "excludes_pattern" false;
     RepoLayoutRef := util.GetString d "repo_layout_ref" false;
     ArtifactoryRequestsCanRetrieveRemoteArtifacts :=
       util.GetBool d "artifactory_requests_can_retrieve_remote_artifacts"
         false;
     Repositories := util.GetList d "repositories";
     Description := util.GetString d "description" false;
     Notes := util.GetString d "notes" false;
     DefaultDeploymentRepo :=
       repository_HandleResetWithNonExistantValue d "default_deployment_repo"
  |}.

Definition UnpackBaseVirtRepoWithRetrievalCachePeriodSecs
    (s : D) (packageType : string)
    : VirtualRepositoryBaseParamsWithRetrievalCachePeriodSecs :=
  let d := s in
  {| Base := UnpackBaseVirtRepo s packageType;
     VirtualRetrievalCachePeriodSecs :=
       util.GetInt d "retrieval_cache_period_seconds" false |}.

End virtual.

(** ** What the framework does with a descriptor

    The plugin SDK, not this repository, validates a configuration against
    the descriptors and builds the accessor that the mapper reads.  The two
    modules below are executable models of those two services, used where a
    statement is about configurations rather than about the mapper alone. *)

Module sdk.

(** The errors of a validation function; the empty list accepts. *)
Definition errors (r : list string * list string) : list string := r.2.

(** Modelled from the spec: the SDK's check of a scalar attribute, which is
    not part of this repository.  The spec says that validation failures are
    signalled by the validation predicates referenced from the descriptors;
    so the value is handed to the descriptor's [ValidateDiagFunc] or
    [ValidateFunc], whichever is set, and is accepted when neither is. *)
Definition validatePrimitive (s : Schema) (k : string) (raw : value)
    : list string :=
  match schema.ValidateDiagFunc s with
  | Some f => f raw
  | None =>
      match schema.ValidateFunc s with
      | Some f => errors (f raw k)
      | None => []
      end
  end.

(** Modelled from the spec: the SDK's check of a list or set attribute, which
    is not part of this repository.  The spec gives the bound, "at most 2",
    that [MaxItems] sets; the SDK's [validateList] holds the length of the
    raw list that the configuration writes against a positive [MaxItems],
    before a set merges equal items, so the count is of the items written. *)
Definition validateList (s : Schema) (k : string) (raw : list string)
    : list string :=
  let n := Z.of_nat (length raw) in
  if (0 <? schema.MaxItems s) && (schema.MaxItems s <? n)
  then [("Too many list items: " ++ k)%string]
  else [].

(** Validation of one attribute of a descriptor table: [None] when the table
    has no such attribute. *)
Definition validate (m : gmap string Schema) (k : string) (raw : value)
    : option (list string) :=
  s ← m !! k;
  match schema.Type_ s, raw with
  | (TypeList | TypeSet), VStrings l => Some (validateList s k (default [] l))
  | (TypeList | TypeSet), _ => Some [("expected a list: " ++ k)%string]
  | _, _ => Some (validatePrimitive s k raw)
  end.

End sdk.

Module config.

(** Modelled from the spec: the configuration accessor, which the spec puts
    out of scope as the generic resource-data accessor utility.  The spec
    describes it as "get configuration value by name, with an optional flag
    controlling whether an unset/zero value is treated as absent", over an
    accessor that "either has a value (possibly a default) for each field".
    So a value is the one the configuration sets, else the descriptor's
    default, else the zero value of the attribute's type; with the flag set,
    an attribute that the configuration leaves unset reads as absent. *)
Record ResourceData : Type := {
  Schema_ : gmap string Schema;
  Config : gmap string value;
}.

Definition Get (d : ResourceData) (key : string) : value :=
  match Config d !! key with
  | Some v => v
  | None =>
      match Schema_ d !! key with
      | Some s => default (schema.ZeroValue (schema.Type_ s)) (schema.Default s)
      | None => VString ""
      end
  end.

Definition read (d : ResourceData) (key : string) (flag : bool)
    : option value :=
  if flag then Config d !! key else Some (Get d key).

Definition GetString (d : ResourceData) (key : string) (flag : bool)
    : string :=
  match read d key flag with Some (VString s) => s | _ => "" end.

Definition GetBool (d : ResourceData) (key : string) (flag : bool) : bool :=
  match read d key flag with Some (VBool b) => b | _ => false end.

Definition GetInt (d : ResourceData) (key : string) (flag : bool) : Z :=
  match read d key flag with Some (VInt n) => n | _ => 0 end.

Definition GetSet (d : ResourceData) (key : string) : slice :=
  match Get d key with VStrings (Some l) => Some (remove_dups l) | _ => None end.

Definition GetList (d : ResourceData) (key : string) : slice :=
  match Get d key with VStrings s => s | _ => None end.

#[global] Instance accessor : util.ResourceData ResourceData := {|
  util.GetString := GetString;
  util.GetBool := GetBool;
  util.GetInt := GetInt;
  util.GetSet := GetSet;
  util.GetList := GetList;
|}.

(** The plain read of a string attribute, the simplest function of the type
    of [repository.HandleResetWithNonExistantValue]. *)
Definition plain (d : ResourceData) (key : string) : string :=
  GetString d key false.

End config.

(** ** Sample configurations *)

Module sample.

(** The descriptor table with validators that accept everything and a
    constant hash. *)
Definition table : gmap string Schema :=
  BaseVirtualRepoSchema (fun _ => []) (fun _ => []) (fun _ => 0).

(** A configuration that sets the key and two environments (one of them
    twice), and that also carries values under [package_type] and [rclass]. *)
Definition libs : config.ResourceData :=
  {| config.Schema_ := table;
     config.Config :=
       {[ "key" := VString "libs";
          "package_type" := VString "npm";
          "rclass" := VString "local";
          "project_environments" := VStrings (Some ["DEV"; "DEV"; "PROD"]) ]}
  |}.

(** A configuration that never sets [default_deployment_repo]. *)
Definition unset : config.ResourceData :=
  {| config.Schema_ := table;
     config.Config := {[ "key" := VString "libs" ]} |}.


(** Configurations that differ in the cache period only. *)
Definition cached (secs : Z) : config.ResourceData :=
  {| config.Schema_ := table;
     config.Config :=
       <[ "retrieval_cache_period_seconds" := VInt secs ]>
         {[ "key" := VString "libs" ]} |}.

(** The parameters with every field at the zero value of its type. *)
Definition zero : VirtualRepositoryBaseParamsWithRetrievalCachePeriodSecs :=
  {| Base :=
       {| Key := ""; ProjectKey := ""; ProjectEnvironments := None;
          Rclass := ""; PackageType := ""; Description := ""; Notes := "";
          IncludesPattern := ""; ExcludesPattern := ""; RepoLayoutRef := "";
          Repositories := None;
          ArtifactoryRequestsCanRetrieveRemoteArtifacts := false;
          DefaultDeploymentRepo := "" |};
     VirtualRetrievalCachePeriodSecs := 0 |}.

End sample.

(** The attribute names that the spec declares for the descriptor set, in
    the order in which it lists them. *)
Definition declared_attributes : list string :=
  [ "key"; "project_key"; "project_environments"; "package_type";
    "description"; "notes"; "includes_pattern"; "excludes_pattern";
    "repo_layout_ref"; "repositories";
    "artifactory_requests_can_retrieve_remote_artifacts";
    "default_deployment_repo"; "retrieval_cache_period_seconds" ].

(** Two accessors agree on an attribute when every read of it, the
    reset-aware one included, gives the same value on both. *)
Definition agree_on {D : Type} `{!util.ResourceData D}
    (reset : D -> string -> string) (d1 d2 : D) (key : string) : Prop :=
  (forall flag, util.GetString d1 key flag = util.GetString d2 key flag) /\
  (forall flag, util.GetBool d1 key flag = util.GetBool d2 key flag) /\
  (forall flag, util.GetInt d1 key flag = util.GetInt d2 key flag) /\
  util.GetSet d1 key = util.GetSet d2 key /\
  util.GetList d1 key = util.GetList d2 key /\
  reset d1 key = reset d2 key.

(** The twelve attributes that [UnpackBaseVirtRepo] reads and the one more
    that [UnpackBaseVirtRepoWithRetrievalCachePeriodSecs] reads, each with
    the read made of it: two accessors give the same reads when the calls
    that the two functions make return the same on both. *)
Definition same_reads {D : Type} `{!util.ResourceData D}
    (reset : D -> string -> string) (d1 d2 : D) : Prop :=
  Forall (fun key => util.GetString d1 key false = util.GetString d2 key false)
    [ "key"; "project_key"; "includes_pattern"; "excludes_pattern";
      "repo_layout_ref"; "description"; "notes" ] /\
  util.GetSet d1 "project_environments" =
    util.GetSet d2 "project_environments" /\
  util.GetBool d1 "artifactory_requests_can_retrieve_remote_artifacts" false =
    util.GetBool d2 "artifactory_requests_can_retrieve_remote_artifacts"
      false /\
  util.GetList d1 "repositories" = util.GetList d2 "repositories" /\
  reset d1 "default_deployment_repo" = reset d2 "default_deployment_repo" /\
  util.GetInt d1 "retrieval_cache_period_seconds" false =
    util.GetInt d2 "retrieval_cache_period_seconds" false.

(** A slice as [omitempty] sees it: an empty slice is as good as nil. *)
Definition drop_empty (s : slice) : slice :=
  match s with
  | Some (x :: l) => Some (x :: l)
  | _ => None
  end.

(** A slice with every string coerced to valid UTF-8. *)
Definition coerce_slice (s : slice) : slice :=
  match s with
  | Some l => Some (json.coerce <$> l)
  | None => None
  end.

(** What serialization keeps of the parameters: every string as it is
    written, coerced to valid UTF-8, and an empty [Repositories] as nil. *)
Definition canon (bp : VirtualRepositoryBaseParams)
    : VirtualRepositoryBaseParams :=
  {| Key := json.coerce (Key bp);
     ProjectKey := json.coerce (ProjectKey bp);
     ProjectEnvironments := coerce_slice (ProjectEnvironments bp);
     Rclass := json.coerce (Rclass bp);
     PackageType := json.coerce (PackageType bp);
     Description := json.coerce (Description bp);
     Notes := json.coerce (Notes bp);
     IncludesPattern := json.coerce (IncludesPattern bp);
     ExcludesPattern := json.coerce (ExcludesPattern bp);
     RepoLayoutRef := json.coerce (RepoLayoutRef bp);
     Repositories := drop_empty (coerce_slice (Repositories bp));
     ArtifactoryRequestsCanRetrieveRemoteArtifacts :=
       ArtifactoryRequestsCanRetrieveRemoteArtifacts bp;
     DefaultDeploymentRepo := json.coerce (DefaultDeploymentRepo bp) |}.


(** The members that the tags of [VirtualRepositoryBaseParams] promise of an
    object [j] written for [bp]: [projectKey], [environments] and [rclass]
    carry their field whatever it holds, and each of the other ten is absent
    when its field holds the zero value of its type. *)
Definition tagged (bp : VirtualRepositoryBaseParams) (j : json.Value)
    : Prop :=
  json.member "projectKey" j = Some (json.encode (VString (ProjectKey bp))) /\
  json.member "environments" j =
    Some (json.encode (VStrings (ProjectEnvironments bp))) /\
  json.member "rclass" j = Some (json.encode (VString (Rclass bp))) /\
  (Key bp = "" -> json.member "key" j = None) /\
  (PackageType bp = "" -> json.member "packageType" j = None) /\
  (Description bp = "" -> json.member "description" j = None) /\
  (Notes bp = "" -> json.member "notes" j = None) /\
  (IncludesPattern bp = "" -> json.member "includesPattern" j = None) /\
  (ExcludesPattern bp = "" -> json.member "excludesPattern" j = None) /\
  (RepoLayoutRef bp = "" -> json.member "repoLayoutRef" j = None) /\
  (Repositories bp = None -> json.member "repositories" j = None) /\
  (ArtifactoryRequestsCanRetrieveRemoteArtifacts bp = false ->
   json.member "artifactoryRequestsCanRetrieveRemoteArtifacts" j = None) /\
  (DefaultDeploymentRepo bp = "" ->
   json.member "defaultDeploymentRepo" j = None).

(** The [json] tag names of the two structs, in declaration order. *)
Definition base_tags : list string :=
  [ "key"; "projectKey"; "environments"; "rclass"; "packageType";
    "description"; "notes"; "includesPattern"; "excludesPattern";
    "repoLayoutRef"; "repositories";
    "artifactoryRequestsCanRetrieveRemoteArtifacts";
    "defaultDeploymentRepo" ].

(** What the plugin SDK asks of a descriptor, read on one entry: exactly one
    of required, optional and computed; a default only on an optional
    attribute and of the attribute's type; an element descriptor (of strings)
    on lists and sets and only there; a bound on the items and a hash only
    where there are items to count or hash; validators only on scalars and
    never two of them. *)
Definition kind_of (v : value) : schema.ValueType :=
  match v with
  | VString _ => TypeString
  | VBool _ => TypeBool
  | VInt _ => TypeInt
  | VStrings _ => TypeList
  end.

Definition is_collection (t : schema.ValueType) : bool :=
  match t with TypeList | TypeSet => true | _ => false end.

Definition exactly_one (a b c : bool) : bool :=
  match a, b, c with
  | true, false, false | false, true, false | false, false, true => true
  | _, _, _ => false
  end.

Definition type_eqb (t u : schema.ValueType) : bool :=
  match t, u with
  | schema.TypeInvalid, schema.TypeInvalid | TypeBool, TypeBool
  | TypeInt, TypeInt | schema.TypeFloat, schema.TypeFloat
  | TypeString, TypeString | TypeList, TypeList
  | schema.TypeMap, schema.TypeMap | TypeSet, TypeSet => true
  | _, _ => false
  end.

Definition isSome {A : Type} (o : option A) : bool :=
  match o with Some _ => true | None => false end.

Definition consistent (s : Schema) : bool :=
  let t := schema.Type_ s in
  exactly_one (schema.Required s) (schema.Optional s) (schema.Computed s) &&
  match schema.Default s with
  | Some v => schema.Optional s && type_eqb (kind_of v) t
  | None => true
  end &&
  match schema.Elem s with
  | Some e => is_collection t && type_eqb (schema.Type_ e) TypeString
  | None => negb (is_collection t)
  end &&
  ((schema.MaxItems s =? 0) || is_collection t) &&
  (negb (isSome (schema.Set_ s)) || type_eqb t TypeSet) &&
  negb (isSome (schema.ValidateFunc s) &&
        isSome (schema.ValidateDiagFunc s)) &&
  (negb (isSome (schema.ValidateFunc s) ||
         isSome (schema.ValidateDiagFunc s)) ||
   negb (is_collection t)).

(** A configuration like [sample.libs] but for the value it carries under
    [package_type], and without one under [rclass]. *)
Definition libs_docker : config.ResourceData :=
  {| config.Schema_ := sample.table;
     config.Config :=
       {[ "key" := VString "libs";
          "package_type" := VString "docker";
          "project_environments" := VStrings (Some ["DEV"; "DEV"; "PROD"]) ]}
  |}.

(** * Properties *)

(** ** Serialization *)

Lemma length_zero_iff_empty (s : string) :
  String.length s = 0%nat <-> s = "".
Proof. destruct s; simpl; split; intros E; congruence. Qed.

Lemma IsZero_isEmptyValue (v : value) :
  Go.IsZero v = true -> json.isEmptyValue v = true.
Proof.
  destruct v as [s|b|n|[l|]]; simpl; try done.
  intros E. apply bool_decide_eq_true in E. subst s. done.
Qed.

Lemma isEmptyValue_VString (s : string) :
  json.isEmptyValue (VString s) = bool_decide (s = "").
Proof. simpl. apply bool_decide_ext, length_zero_iff_empty. Qed.

Lemma coerce_empty_iff (s : string) : json.coerce s = "" <-> s = "".
Proof.
  split; [|by intros ->].
  destruct s as [|b0 r0]; [done|]. cbn.
  repeat case_match; discriminate.
Qed.

Lemma members_cons (f : json.field) (fs : list json.field) :
  json.members (f :: fs) = json.emit f ++ json.members fs.
Proof. reflexivity. Qed.

Lemma assoc_emit_ne (k : string) (f : json.field)
    (ms : list (string * json.Value)) :
  k <> json.name f -> json.assoc k (json.emit f ++ ms) = json.assoc k ms.
Proof.
  intros Hne. unfold json.emit.
  destruct (json.omitempty f && json.isEmptyValue (json.val f)); simpl.
  - reflexivity.
  - destruct (decide (k = json.name f)); [contradiction | reflexivity].
Qed.

Lemma assoc_members_fresh (k : string) (fs : list json.field) :
  k ∉ json.name <$> fs -> json.assoc k (json.members fs) = None.
Proof.
  induction fs as [|f fs IH]; intros Hk; [reflexivity|].
  rewrite fmap_cons in Hk. apply not_elem_of_cons in Hk as [Hne Hk].
  rewrite members_cons, assoc_emit_ne by exact Hne. auto.
Qed.

(** What [Marshal] writes for a field of a struct whose tags are distinct. *)
Lemma assoc_members (fs : list json.field) (f : json.field) :
  NoDup (json.name <$> fs) -> f ∈ fs ->
  json.assoc (json.name f) (json.members fs) =
    if json.omitempty f && json.isEmptyValue (json.val f) then None
    else Some (json.encode (json.val f)).
Proof.
  induction fs as [|g fs IH]; intros Hnd Hin.
  - by apply elem_of_nil in Hin.
  - rewrite fmap_cons in Hnd. apply NoDup_cons in Hnd as [Hg Hnd].
    rewrite members_cons. apply elem_of_cons in Hin as [->|Hin].
    + unfold json.emit at 1.
      destruct (json.omitempty g && json.isEmptyValue (json.val g)); simpl.
      * by apply assoc_members_fresh.
      * by rewrite decide_True.
    + rewrite assoc_emit_ne; [by apply IH|].
      intros E. apply Hg. rewrite <- E. by apply list_elem_of_fmap_2.
Qed.

Lemma base_tags_NoDup (bp : VirtualRepositoryBaseParams) :
  NoDup (json.name <$> VirtualRepositoryBaseParams_fields bp).
Proof. apply (bool_decide_unpack _). vm_compute. exact I. Qed.

Lemma with_cache_tags_NoDup
    (p : VirtualRepositoryBaseParamsWithRetrievalCachePeriodSecs) :
  NoDup (json.name <$>
           VirtualRepositoryBaseParamsWithRetrievalCachePeriodSecs_fields p).
Proof. apply (bool_decide_unpack _). vm_compute. exact I. Qed.

Ltac in_fields :=
  unfold VirtualRepositoryBaseParamsWithRetrievalCachePeriodSecs_fields,
    VirtualRepositoryBaseParams_fields; simpl app;
  repeat first [apply list_elem_of_here | apply list_elem_of_further].



(** ** The mapper, over any accessor *)

Section mapper.

Context {D : Type} `{!util.ResourceData D}.

(** The reset-aware read, [repository.HandleResetWithNonExistantValue]. *)
Variable reset : D -> string -> string.


(** C3: the struct embedded in the result of
    [UnpackBaseVirtRepoWithRetrievalCachePeriodSecs] is the result of
    [UnpackBaseVirtRepo] on the same accessor and argument, and the one
    field besides it is the integer read under
    [retrieval_cache_period_seconds]; serialized, the result has the
    members of the base result and that one more. *)
Theorem UnpackBaseVirtRepoWithRetrievalCachePeriodSecs_extends
    (d : D) (packageType : string) :
  let p := UnpackBaseVirtRepoWithRetrievalCachePeriodSecs reset d packageType in
  let secs := util.GetInt d "retrieval_cache_period_seconds" false in
  Base p = UnpackBaseVirtRepo reset d packageType /\
  VirtualRetrievalCachePeriodSecs p = secs /\
  p = {| Base := UnpackBaseVirtRepo reset d packageType;
         VirtualRetrievalCachePeriodSecs := secs |} /\
  VirtualRepositoryBaseParamsWithRetrievalCachePeriodSecs_fields p =
    VirtualRepositoryBaseParams_fields
      (UnpackBaseVirtRepo reset d packageType) ++
    [ json.mkField "virtualRetrievalCachePeriodSecs" false (VInt secs) ].
Proof. cbv zeta. repeat split. Qed.

(** C10: on two accessors that agree on every attribute other than
    [retrieval_cache_period_seconds], [UnpackBaseVirtRepo] returns equal
    parameters. *)
Theorem UnpackBaseVirtRepo_ignores_cache_period
    (d1 d2 : D) (packageType : string) :
  (forall key, key <> "retrieval_cache_period_seconds" ->
     agree_on reset d1 d2 key) ->
  UnpackBaseVirtRepo reset d1 packageType =
  UnpackBaseVirtRepo reset d2 packageType.
Proof.
  intros Hagree.
  assert (Hs : forall key, key <> "retrieval_cache_period_seconds" ->
            util.GetString d1 key false = util.GetString d2 key false)
    by (intros key Hk; apply (Hagree key Hk)).
  unfold UnpackBaseVirtRepo; cbv zeta.
  rewrite !Hs by discriminate.
  destruct (Hagree "project_environments") as (_ & _ & _ & -> & _);
    [discriminate|].
  destruct (Hagree "repositories") as (_ & _ & _ & _ & -> & _);
    [discriminate|].
  destruct (Hagree "artifactory_requests_can_retrieve_remote_artifacts")
    as (_ & -> & _); [discriminate|].
  destruct (Hagree "default_deployment_repo") as (_ & _ & _ & _ & _ & ->);
    [discriminate|].
  reflexivity.
Qed.

End mapper.

(** ** Serialized form of the parameters *)

(** The promise of the tags holds of any struct that has the thirteen
    fields among its own, under distinct tags. *)
Lemma tagged_Marshal (bp : VirtualRepositoryBaseParams)
    (fs : list json.field) :
  NoDup (json.name <$> fs) ->
  (forall f, f ∈ VirtualRepositoryBaseParams_fields bp -> f ∈ fs) ->
  tagged bp (json.Marshal fs).
Proof.
  intros Hnd Hsub.
  assert (M : forall f, f ∈ VirtualRepositoryBaseParams_fields bp ->
            json.member (json.name f) (json.Marshal fs) =
            if json.omitempty f && json.isEmptyValue (json.val f) then None
            else Some (json.encode (json.val f)))
    by (intros f Hf; apply (assoc_members fs f Hnd (Hsub f Hf))).
  unfold tagged.
  repeat match goal with
  | |- _ /\ _ => split
  | |- json.member ?k _ = Some (json.encode ?v) =>
      exact (M (json.mkField k false v) ltac:(in_fields))
  | |- ?x = ?z -> json.member ?k _ = None =>
      let E := fresh "E" in
      let A := fresh "A" in
      intros E;
      first
        [ pose proof (M (json.mkField k true (VString x)) ltac:(in_fields))
            as A
        | pose proof (M (json.mkField k true (VBool x)) ltac:(in_fields))
            as A
        | pose proof (M (json.mkField k true (VStrings x)) ltac:(in_fields))
            as A ];
      cbn [json.name json.omitempty json.val] in A;
      rewrite A, E; reflexivity
  end.
Qed.

(** C4: serializing either parameter struct, a field that holds the zero
    value of its type is left out, except [projectKey], [environments],
    [rclass] and [virtualRetrievalCachePeriodSecs], which are written with
    their value whatever it is. *)
Theorem Marshal_omits_zero_fields :
  (forall bp : VirtualRepositoryBaseParams,
     tagged bp (json.Marshal (VirtualRepositoryBaseParams_fields bp))) /\
  (forall p : VirtualRepositoryBaseParamsWithRetrievalCachePeriodSecs,
     let j := json.Marshal
                (VirtualRepositoryBaseParamsWithRetrievalCachePeriodSecs_fields
                   p) in
     tagged (Base p) j /\
     json.member "virtualRetrievalCachePeriodSecs" j =
       Some (json.Number (VirtualRetrievalCachePeriodSecs p))).
Proof.
  split.
  - intros bp. apply tagged_Marshal; [apply base_tags_NoDup|done].
  - intros p. cbv zeta. split.
    + apply tagged_Marshal; [apply with_cache_tags_NoDup|].
      intros f Hf. apply elem_of_app. by left.
    + exact (assoc_members _
               (json.mkField "virtualRetrievalCachePeriodSecs" false
                  (VInt (VirtualRetrievalCachePeriodSecs p)))
               (with_cache_tags_NoDup p) ltac:(in_fields)).
Qed.

(** ** The package-type tables *)

(** C5: no package type is in both [VirtualRepoTypesLikeGeneric] and
    [VirtualRepoTypesLikeGenericWithRetrievalCachePeriodSecs]. *)
Theorem VirtualRepoTypes_disjoint :
  forall t : string,
    ~ (t ∈ VirtualRepoTypesLikeGeneric /\
       t ∈ VirtualRepoTypesLikeGenericWithRetrievalCachePeriodSecs).
Proof.
  assert (F : Forall
    (fun t => t ∉ VirtualRepoTypesLikeGenericWithRetrievalCachePeriodSecs)
    VirtualRepoTypesLikeGeneric)
    by (apply (bool_decide_unpack _); vm_compute; exact I).
  intros t [H1 H2]. rewrite Forall_forall in F. exact (F t H1 H2).
Qed.

(** ** The descriptor table *)


Section table.

Variable validator_ProjectKey : schema.SchemaValidateDiagFunc.
Variable repository_ValidateRepoLayoutRefSchemaOverride
  : schema.SchemaValidateDiagFunc.
Variable schema_HashString : schema.SchemaSetFunc.

Abbreviation entries :=
  (BaseVirtualRepoSchema_entries validator_ProjectKey
     repository_ValidateRepoLayoutRefSchemaOverride schema_HashString).
Abbreviation table :=
  (BaseVirtualRepoSchema validator_ProjectKey
     repository_ValidateRepoLayoutRefSchemaOverride schema_HashString).

Lemma table_lookup (k : string) (s : Schema) :
  table !! k = Some s -> (k, s) ∈ entries.
Proof. apply elem_of_list_to_map_2. Qed.

(** C9: no descriptor of the table is both required and computed, and the
    table binds exactly the thirteen declared names, each once. *)
Theorem BaseVirtualRepoSchema_well_formed :
  NoDup entries.*1 /\
  entries.*1 = declared_attributes /\
  (forall k : string, is_Some (table !! k) <-> k ∈ declared_attributes) /\
  size table = length declared_attributes /\
  map_Forall
    (fun _ s => schema.Required s && schema.Computed s = false) table.
Proof.
  assert (Hnd : NoDup entries.*1)
    by (apply (bool_decide_unpack _); vm_compute; exact I).
  split; [exact Hnd|]. split; [reflexivity|]. split; [|split].
  - intros k. rewrite <- elem_of_dom.
    unfold BaseVirtualRepoSchema. rewrite dom_list_to_map_L.
    apply elem_of_list_to_set.
  - unfold BaseVirtualRepoSchema.
    rewrite <- length_map_to_list, (map_to_list_to_map _ Hnd). reflexivity.
  - intros k s Hks. apply table_lookup in Hks.
    unfold BaseVirtualRepoSchema_entries in Hks.
    repeat (apply elem_of_cons in Hks as [[= -> ->]|Hks]; [reflexivity|]).
    by apply elem_of_nil in Hks.
Qed.

(** C7: the table validates an integer under
    [retrieval_cache_period_seconds] with [validation.IntAtLeast 0], which
    accepts it exactly when it is at least 0; 0 passes and -1 does not. *)
Theorem retrieval_cache_period_seconds_validation :
  schema.ValidateFunc <$> table !! "retrieval_cache_period_seconds" =
    Some (Some (validation.IntAtLeast 0)) /\
  (forall v : Z,
     sdk.validate table "retrieval_cache_period_seconds" (VInt v) = Some []
     <-> 0 <= v) /\
  sdk.validate table "retrieval_cache_period_seconds" (VInt 0) = Some [] /\
  sdk.validate table "retrieval_cache_period_seconds" (VInt (-1)) <> Some [].
Proof.
  assert (E : forall v : Z,
    sdk.validate table "retrieval_cache_period_seconds" (VInt v) =
    Some (sdk.errors
            (validation.IntAtLeast 0 (VInt v)
               "retrieval_cache_period_seconds"))) by reflexivity.
  split; [reflexivity|]. split; [|split].
  - intros v. rewrite E. unfold sdk.errors, validation.IntAtLeast.
    destruct (Z.ltb_spec v 0); simpl; split; (discriminate || lia || done).
  - reflexivity.
  - rewrite E. discriminate.
Qed.


End table.

(** ** Defaults *)

(** C6: the descriptors give [includes_pattern] the default [**/*] and
    [retrieval_cache_period_seconds] the default 7200, and an accessor over
    the table whose configuration sets neither yields these two values in
    the unpacked parameters. *)
Theorem defaults_unpacked
    (validator_ProjectKey repository_ValidateRepoLayoutRefSchemaOverride
       : schema.SchemaValidateDiagFunc)
    (schema_HashString : schema.SchemaSetFunc)
    (reset : config.ResourceData -> string -> string)
    (d : config.ResourceData) (packageType : string) :
  let table :=
    BaseVirtualRepoSchema validator_ProjectKey
      repository_ValidateRepoLayoutRefSchemaOverride schema_HashString in
  config.Schema_ d = table ->
  config.Config d !! "includes_pattern" = None ->
  config.Config d !! "retrieval_cache_period_seconds" = None ->
  schema.Default <$> table !! "includes_pattern" =
    Some (Some (VString "**/*")) /\
  schema.Default <$> table !! "retrieval_cache_period_seconds" =
    Some (Some (VInt 7200)) /\
  IncludesPattern (UnpackBaseVirtRepo reset d packageType) = "**/*" /\
  IncludesPattern
    (Base (UnpackBaseVirtRepoWithRetrievalCachePeriodSecs reset d
             packageType)) = "**/*" /\
  VirtualRetrievalCachePeriodSecs
    (UnpackBaseVirtRepoWithRetrievalCachePeriodSecs reset d packageType) =
    7200.
Proof.
  cbv zeta. intros Hschema Hinc Hsecs.
  split; [reflexivity|]. split; [reflexivity|].
  unfold UnpackBaseVirtRepoWithRetrievalCachePeriodSecs, UnpackBaseVirtRepo.
  cbn [IncludesPattern Base VirtualRetrievalCachePeriodSecs].
  cbn [util.GetString util.GetInt config.accessor].
  unfold config.GetString, config.GetInt, config.read, config.Get.
  rewrite Hinc, Hsecs, Hschema. repeat split.
Qed.

(** ** Instances on the sample configurations *)

Lemma defaults_unpacked_witness :
  config.Config sample.unset !! "includes_pattern" = None /\
  config.Config sample.unset !! "retrieval_cache_period_seconds" = None /\
  IncludesPattern (UnpackBaseVirtRepo config.plain sample.unset "npm") =
    "**/*" /\
  VirtualRetrievalCachePeriodSecs
    (UnpackBaseVirtRepoWithRetrievalCachePeriodSecs config.plain sample.unset
       "npm") = 7200.
Proof.
  split; [reflexivity|]. split; [reflexivity|].
  pose proof (defaults_unpacked (fun _ => []) (fun _ => []) (fun _ => 0)
                config.plain sample.unset "npm" eq_refl eq_refl eq_refl)
    as (_ & _ & Hinc & _ & Hsecs).
  exact (conj Hinc Hsecs).
Defined.

Lemma UnpackBaseVirtRepo_ignores_cache_period_witness :
  util.GetInt (sample.cached 10) "retrieval_cache_period_seconds" false <>
  util.GetInt (sample.cached 7200) "retrieval_cache_period_seconds" false /\
  UnpackBaseVirtRepo config.plain (sample.cached 10) "npm" =
  UnpackBaseVirtRepo config.plain (sample.cached 7200) "npm".
Proof.
  split; [discriminate|].
  apply (UnpackBaseVirtRepo_ignores_cache_period config.plain).
  intros key Hkey.
  assert (G : forall flag,
            config.read (sample.cached 10) key flag =
            config.read (sample.cached 7200) key flag).
  { intros flag. unfold config.read, config.Get, sample.cached.
    cbn [config.Config config.Schema_].
    rewrite !lookup_insert_ne by (intros E; apply Hkey; symmetry; exact E).
    reflexivity. }
  unfold agree_on, config.plain.
  cbn [util.GetString util.GetBool util.GetInt util.GetSet util.GetList
       config.accessor].
  unfold config.GetString, config.GetBool, config.GetInt, config.GetSet,
    config.GetList.
  pose proof (G false) as G0. unfold config.read in G0 at 1 2.
  injection G0 as G0.
  repeat split; try (intros flag); rewrite ?G, ?G0; reflexivity.
Defined.

Lemma Marshal_omits_zero_fields_witness :
  let j := json.Marshal
             (VirtualRepositoryBaseParamsWithRetrievalCachePeriodSecs_fields
                sample.zero) in
  json.member "key" j = None /\
  json.member "repositories" j = None /\
  json.member "projectKey" j = Some (json.Str "") /\
  json.member "environments" j = Some json.Null /\
  json.member "virtualRetrievalCachePeriodSecs" j = Some (json.Number 0).
Proof.
  destruct (proj2 Marshal_omits_zero_fields sample.zero)
    as [(Hpk & Henv & _ & Hkey & _ & _ & _ & _ & _ & _ & Hrepos & _) Hsecs].
  exact (conj (Hkey eq_refl)
           (conj (Hrepos eq_refl) (conj Hpk (conj Henv Hsecs)))).
Defined.

(** ** The reset-aware read and the serialized form *)





(** The mapper on [sample.libs]: the values under [package_type] and
    [rclass] in the configuration reach neither [PackageType] nor
    [Rclass]. *)
Example UnpackBaseVirtRepo_libs :
  UnpackBaseVirtRepo config.plain sample.libs "generic" =
  {| Key := "libs"; ProjectKey := "";
     ProjectEnvironments := Some ["DEV"; "PROD"];
     Rclass := "virtual"; PackageType := "generic"; Description := "";
     Notes := ""; IncludesPattern := "**/*"; ExcludesPattern := "";
     RepoLayoutRef := ""; Repositories := None;
     ArtifactoryRequestsCanRetrieveRemoteArtifacts := false;
     DefaultDeploymentRepo := "" |}.
Proof. reflexivity. Qed.

Example Marshal_libs :
  json.Marshal
    (VirtualRepositoryBaseParamsWithRetrievalCachePeriodSecs_fields
       (UnpackBaseVirtRepoWithRetrievalCachePeriodSecs config.plain
          sample.libs "generic")) =
  json.Object
    [ ("key", json.Str "libs"); ("projectKey", json.Str "");
      ("environments", json.Array [json.Str "DEV"; json.Str "PROD"]);
      ("rclass", json.Str "virtual"); ("packageType", json.Str "generic");
      ("includesPattern", json.Str "**/*");
      ("virtualRetrievalCachePeriodSecs", json.Number 7200) ].
Proof. reflexivity. Qed.

(** Unlike the base mapper, the mapper with the cache period tells the two
    [sample.cached] configurations apart. *)
Example with_cache_period_reads_it :
  VirtualRetrievalCachePeriodSecs
    (UnpackBaseVirtRepoWithRetrievalCachePeriodSecs config.plain
       (sample.cached 10) "npm") = 10.
Proof. reflexivity. Qed.

Example project_environments_three_rejected :
  sdk.validate sample.table "project_environments"
    (VStrings (Some ["DEV"; "PROD"; "QA"])) =
  Some ["Too many list items: project_environments"].
Proof. reflexivity. Qed.



(** * Further properties *)

(** ** More on the serialization *)

Lemma member_field (fs : list json.field) (f : json.field) :
  NoDup (json.name <$> fs) -> f ∈ fs ->
  json.member (json.name f) (json.Marshal fs) =
    if json.omitempty f && json.isEmptyValue (json.val f) then None
    else Some (json.encode (json.val f)).
Proof. exact (assoc_members fs f). Qed.

Lemma members_app (fs1 fs2 : list json.field) :
  json.members (fs1 ++ fs2) = json.members fs1 ++ json.members fs2.
Proof.
  induction fs1 as [|f fs1 IH]; [reflexivity|].
  rewrite <- app_comm_cons, !members_cons, IH. apply app_assoc.
Qed.

Lemma members_names_sublist (fs : list json.field) :
  (json.members fs).*1 `sublist_of` json.name <$> fs.
Proof.
  induction fs as [|f fs IH]; [constructor|].
  rewrite members_cons, fmap_app, fmap_cons. unfold json.emit.
  destruct (json.omitempty f && json.isEmptyValue (json.val f)); simpl.
  - by apply sublist_cons.
  - by apply sublist_skip.
Qed.

Lemma assoc_app (k : string) (l1 l2 : list (string * json.Value)) :
  json.assoc k (l1 ++ l2) =
    match json.assoc k l1 with
    | Some v => Some v
    | None => json.assoc k l2
    end.
Proof.
  induction l1 as [|[k' v] l1 IH]; [reflexivity|]. simpl.
  destruct (decide (k = k')); [reflexivity | exact IH].
Qed.

Lemma fmap_Str_inj (l1 l2 : list string) :
  json.Str <$> l1 = json.Str <$> l2 -> l1 = l2.
Proof.
  revert l2. induction l1 as [|x l1 IH]; intros [|y l2] E;
    try discriminate; [reflexivity|].
  rewrite !fmap_cons in E. injection E as -> E. f_equal. by apply IH.
Qed.

Lemma encode_slice_inj (s1 s2 : slice) :
  json.encode (VStrings s1) = json.encode (VStrings s2) ->
  coerce_slice s1 = coerce_slice s2.
Proof.
  destruct s1 as [l1|], s2 as [l2|]; cbn [json.encode coerce_slice];
    intros E; try discriminate; [|reflexivity].
  f_equal. apply fmap_Str_inj. congruence.
Qed.

(** Values that are written alike are empty alike. *)
Lemma encode_empty (v1 v2 : value) :
  json.encode v1 = json.encode v2 ->
  json.isEmptyValue v1 = json.isEmptyValue v2.
Proof.
  destruct v1 as [s1|b1|n1|[l1|]], v2 as [s2|b2|n2|[l2|]];
    cbn [json.encode json.isEmptyValue Go.len];
    intros E; try discriminate; try congruence.
  - apply bool_decide_ext.
    rewrite !length_zero_iff_empty, <- (coerce_empty_iff s1),
      <- (coerce_empty_iff s2). injection E as E. by rewrite E.
  - assert (El : length l1 = length l2).
    { rewrite <- (length_fmap json.coerce l1),
        <- (length_fmap json.coerce l2).
      f_equal. apply fmap_Str_inj. congruence. }
    by rewrite El.
Qed.

(** What two fields contribute to equal objects. *)
Lemma emitted_string_inj (o : bool) (s1 s2 : string) :
  (if o && json.isEmptyValue (VString s1) then None
   else Some (json.encode (VString s1))) =
  (if o && json.isEmptyValue (VString s2) then None
   else Some (json.encode (VString s2))) ->
  json.coerce s1 = json.coerce s2.
Proof.
  rewrite !isEmptyValue_VString. cbn [json.encode].
  destruct o; cbn [andb]; [|by intros [= E]].
  do 2 case_bool_decide; intros E; try discriminate.
  - by subst.
  - by injection E.
Qed.

Lemma emitted_bool_inj (o : bool) (b1 b2 : bool) :
  (if o && json.isEmptyValue (VBool b1) then None
   else Some (json.encode (VBool b1))) =
  (if o && json.isEmptyValue (VBool b2) then None
   else Some (json.encode (VBool b2))) ->
  b1 = b2.
Proof. destruct o, b1, b2; simpl; congruence. Qed.

Lemma emitted_slice_inj (o : bool) (s1 s2 : slice) :
  (if o && json.isEmptyValue (VStrings s1) then None
   else Some (json.encode (VStrings s1))) =
  (if o && json.isEmptyValue (VStrings s2) then None
   else Some (json.encode (VStrings s2))) ->
  if o then drop_empty (coerce_slice s1) = drop_empty (coerce_slice s2)
  else coerce_slice s1 = coerce_slice s2.
Proof.
  destruct o; cbn [andb].
  - destruct (json.isEmptyValue (VStrings s1)) eqn:E1,
      (json.isEmptyValue (VStrings s2)) eqn:E2; intros E;
      try discriminate.
    + by destruct s1 as [[|x1 l1]|], s2 as [[|x2 l2]|].
    + injection E as E. apply encode_slice_inj in E. by rewrite E.
  - intros [= E]. by apply encode_slice_inj.
Qed.

(** And conversely: what is kept of a field decides what it contributes. *)
Lemma emit_string_eq (n : string) (o : bool) (s1 s2 : string) :
  json.coerce s1 = json.coerce s2 ->
  json.emit (json.mkField n o (VString s1)) =
  json.emit (json.mkField n o (VString s2)).
Proof.
  intros E. unfold json.emit.
  cbn [json.name json.omitempty json.val json.encode].
  rewrite !isEmptyValue_VString, E.
  by rewrite (bool_decide_ext (s1 = "") (s2 = ""))
    by (rewrite <- (coerce_empty_iff s1), <- (coerce_empty_iff s2);
        by rewrite E).
Qed.

Lemma emit_slice_eq (n : string) (s1 s2 : slice) :
  coerce_slice s1 = coerce_slice s2 ->
  json.emit (json.mkField n false (VStrings s1)) =
  json.emit (json.mkField n false (VStrings s2)).
Proof.
  destruct s1 as [l1|], s2 as [l2|]; intros E; try discriminate;
    [|reflexivity].
  injection E as E. unfold json.emit.
  cbn [json.name json.omitempty json.val json.encode andb].
  by rewrite E.
Qed.

Lemma emit_slice_omit_eq (n : string) (s1 s2 : slice) :
  drop_empty (coerce_slice s1) = drop_empty (coerce_slice s2) ->
  json.emit (json.mkField n true (VStrings s1)) =
  json.emit (json.mkField n true (VStrings s2)).
Proof.
  destruct s1 as [[|x1 l1]|], s2 as [[|x2 l2]|]; intros E;
    try discriminate; try reflexivity.
  injection E as E1 E2. unfold json.emit.
  cbn [json.name json.omitempty json.val json.encode andb
       json.isEmptyValue Go.len length].
  rewrite !bool_decide_eq_false_2 by done.
  change (json.coerce <$> l1 = json.coerce <$> l2) in E2.
  cbn [fmap list_fmap]. by rewrite E1, E2.
Qed.

(** Equal objects give equal contributions for the fields of one tag. *)
Lemma field_eq (fs1 fs2 : list json.field) (f1 f2 : json.field) :
  NoDup (json.name <$> fs1) -> NoDup (json.name <$> fs2) ->
  f1 ∈ fs1 -> f2 ∈ fs2 -> json.name f1 = json.name f2 ->
  json.Marshal fs1 = json.Marshal fs2 ->
  (if json.omitempty f1 && json.isEmptyValue (json.val f1) then None
   else Some (json.encode (json.val f1))) =
  (if json.omitempty f2 && json.isEmptyValue (json.val f2) then None
   else Some (json.encode (json.val f2))).
Proof.
  intros Hnd1 Hnd2 Hin1 Hin2 Hname HM.
  rewrite <- (member_field fs1 f1 Hnd1 Hin1).
  rewrite <- (member_field fs2 f2 Hnd2 Hin2).
  by rewrite Hname, HM.
Qed.

Ltac field_at H bp1 bp2 i lem :=
  let o1 := eval cbn in (VirtualRepositoryBaseParams_fields bp1 !! i) in
  let o2 := eval cbn in (VirtualRepositoryBaseParams_fields bp2 !! i) in
  lazymatch o1 with
  | Some ?f1 =>
      lazymatch o2 with
      | Some ?f2 =>
          let E := fresh "E" in
          pose proof (field_eq _ _ f1 f2
                        (base_tags_NoDup bp1) (base_tags_NoDup bp2)
                        (list_elem_of_lookup_2
                           (VirtualRepositoryBaseParams_fields bp1) i f1
                           eq_refl)
                        (list_elem_of_lookup_2
                           (VirtualRepositoryBaseParams_fields bp2) i f2
                           eq_refl)
                        eq_refl H) as E;
          cbn [json.name json.omitempty json.val] in E;
          apply lem in E
      end
  end.

Lemma Marshal_base_inj (bp1 bp2 : VirtualRepositoryBaseParams) :
  json.Marshal (VirtualRepositoryBaseParams_fields bp1) =
  json.Marshal (VirtualRepositoryBaseParams_fields bp2) ->
  canon bp1 = canon bp2.
Proof.
  intros H.
  field_at H bp1 bp2 0%nat emitted_string_inj.
  field_at H bp1 bp2 1%nat emitted_string_inj.
  field_at H bp1 bp2 2%nat emitted_slice_inj.
  field_at H bp1 bp2 3%nat emitted_string_inj.
  field_at H bp1 bp2 4%nat emitted_string_inj.
  field_at H bp1 bp2 5%nat emitted_string_inj.
  field_at H bp1 bp2 6%nat emitted_string_inj.
  field_at H bp1 bp2 7%nat emitted_string_inj.
  field_at H bp1 bp2 8%nat emitted_string_inj.
  field_at H bp1 bp2 9%nat emitted_string_inj.
  field_at H bp1 bp2 10%nat emitted_slice_inj.
  field_at H bp1 bp2 11%nat emitted_bool_inj.
  field_at H bp1 bp2 12%nat emitted_string_inj.
  unfold canon. congruence.
Qed.

Lemma canon_Marshal (bp1 bp2 : VirtualRepositoryBaseParams) :
  canon bp1 = canon bp2 ->
  json.Marshal (VirtualRepositoryBaseParams_fields bp1) =
  json.Marshal (VirtualRepositoryBaseParams_fields bp2).
Proof.
  unfold canon. intros [= H0 H1 H2 H3 H4 H5 H6 H7 H8 H9 H10 H11 H12].
  unfold json.Marshal, VirtualRepositoryBaseParams_fields. f_equal.
  rewrite !members_cons.
  repeat match goal with |- _ ++ _ = _ ++ _ => f_equal end;
    first [ by apply emit_string_eq
          | by apply emit_slice_eq
          | by apply emit_slice_omit_eq
          | by rewrite H11 ].
Qed.

Lemma members_with_cache_period
    (p : VirtualRepositoryBaseParamsWithRetrievalCachePeriodSecs) :
  json.members
    (VirtualRepositoryBaseParamsWithRetrievalCachePeriodSecs_fields p) =
  json.members (VirtualRepositoryBaseParams_fields (Base p)) ++
  [ ("virtualRetrievalCachePeriodSecs",
     json.Number (VirtualRetrievalCachePeriodSecs p)) ].
Proof.
  unfold VirtualRepositoryBaseParamsWithRetrievalCachePeriodSecs_fields.
  by rewrite members_app.
Qed.

Lemma member_never_empty (fs : list json.field) (f : json.field) (v : value) :
  NoDup (json.name <$> fs) -> f ∈ fs ->
  json.omitempty f = true -> json.isEmptyValue v = true ->
  json.member (json.name f) (json.Marshal fs) <> Some (json.encode v).
Proof.
  intros Hnd Hin Ho Hv. rewrite (member_field fs f Hnd Hin), Ho. simpl.
  destruct (json.isEmptyValue (json.val f)) eqn:E; [discriminate|].
  intros [= Henc]. apply encode_empty in Henc. congruence.
Qed.

(** X2: the members of a serialized parameter struct have distinct names and
    stand in the order in which the struct declares its tags; there are at
    most thirteen of them, fourteen with the cache period. *)
Theorem Marshal_member_names :
  (forall bp : VirtualRepositoryBaseParams,
     let ms := json.members (VirtualRepositoryBaseParams_fields bp) in
     NoDup ms.*1 /\ ms.*1 `sublist_of` base_tags /\
     (length ms <= 13)%nat) /\
  (forall p : VirtualRepositoryBaseParamsWithRetrievalCachePeriodSecs,
     let ms :=
       json.members
         (VirtualRepositoryBaseParamsWithRetrievalCachePeriodSecs_fields p) in
     NoDup ms.*1 /\
     ms.*1 `sublist_of` base_tags ++ ["virtualRetrievalCachePeriodSecs"] /\
     (length ms <= 14)%nat).
Proof.
  split.
  - intros bp ms.
    pose proof (members_names_sublist
                  (VirtualRepositoryBaseParams_fields bp)) as Hsub.
    change (json.name <$> VirtualRepositoryBaseParams_fields bp)
      with base_tags in Hsub.
    split; [|split; [exact Hsub|]].
    + eapply sublist_NoDup; [|exact Hsub]. apply (base_tags_NoDup bp).
    + apply sublist_length in Hsub.
      rewrite length_fmap in Hsub. exact Hsub.
  - intros p ms.
    pose proof (members_names_sublist
      (VirtualRepositoryBaseParamsWithRetrievalCachePeriodSecs_fields p))
      as Hsub.
    change (json.name <$>
              VirtualRepositoryBaseParamsWithRetrievalCachePeriodSecs_fields p)
      with (base_tags ++ ["virtualRetrievalCachePeriodSecs"]) in Hsub.
    split; [|split; [exact Hsub|]].
    + eapply sublist_NoDup; [|exact Hsub]. apply (with_cache_tags_NoDup p).
    + apply sublist_length in Hsub.
      rewrite length_fmap in Hsub. exact Hsub.
Qed.

(** X3: [repositories] is left out for a nil and for an empty slice alike and
    is an array otherwise, while [environments] is always written: [null]
    for a nil slice, an array (maybe empty) for any other.  The strings of
    an array are those of the slice, coerced to valid UTF-8. *)
Theorem slice_members (bp : VirtualRepositoryBaseParams) :
  let j := json.Marshal (VirtualRepositoryBaseParams_fields bp) in
  json.member "repositories" j =
    match drop_empty (Repositories bp) with
    | Some l => Some (json.Array (json.Str <$> (json.coerce <$> l)))
    | None => None
    end /\
  json.member "environments" j =
    Some (match ProjectEnvironments bp with
          | Some l => json.Array (json.Str <$> (json.coerce <$> l))
          | None => json.Null
          end).
Proof.
  cbv zeta. split.
  - pose proof (member_field (VirtualRepositoryBaseParams_fields bp)
               (json.mkField "repositories" true (VStrings (Repositories bp)))
               (base_tags_NoDup bp) ltac:(in_fields)) as A.
    cbn [json.name json.omitempty json.val] in A. rewrite A.
    by destruct (Repositories bp) as [[|x l]|].
  - pose proof (member_field (VirtualRepositoryBaseParams_fields bp)
               (json.mkField "environments" false
                  (VStrings (ProjectEnvironments bp)))
               (base_tags_NoDup bp) ltac:(in_fields)) as A.
    cbn [json.name json.omitempty json.val] in A. rewrite A.
    by destruct (ProjectEnvironments bp).
Qed.

(** X4: two parameter values serialize to the same object exactly when they
    agree in what serialization keeps of them: every string coerced to valid
    UTF-8, an empty [Repositories] standing for a nil one, and the flag;
    with the cache period, when moreover the periods are equal. *)
Theorem Marshal_injective :
  (forall bp1 bp2 : VirtualRepositoryBaseParams,
     json.Marshal (VirtualRepositoryBaseParams_fields bp1) =
     json.Marshal (VirtualRepositoryBaseParams_fields bp2)
     <-> canon bp1 = canon bp2) /\
  (forall p1 p2 : VirtualRepositoryBaseParamsWithRetrievalCachePeriodSecs,
     json.Marshal
       (VirtualRepositoryBaseParamsWithRetrievalCachePeriodSecs_fields p1) =
     json.Marshal
       (VirtualRepositoryBaseParamsWithRetrievalCachePeriodSecs_fields p2)
     <-> canon (Base p1) = canon (Base p2) /\
         VirtualRetrievalCachePeriodSecs p1 =
         VirtualRetrievalCachePeriodSecs p2).
Proof.
  assert (B : forall bp1 bp2 : VirtualRepositoryBaseParams,
     json.Marshal (VirtualRepositoryBaseParams_fields bp1) =
     json.Marshal (VirtualRepositoryBaseParams_fields bp2)
     <-> canon bp1 = canon bp2)
    by (intros bp1 bp2; split; [apply Marshal_base_inj|apply canon_Marshal]).
  split; [exact B|]. intros p1 p2. unfold json.Marshal at 1 2.
  rewrite !members_with_cache_period. split.
  - intros [= E]. apply app_inj_tail in E as [E [= Es]].
    split; [|exact Es]. apply B. unfold json.Marshal. f_equal. exact E.
  - intros [E Es]. apply B in E. rewrite Es. do 2 f_equal.
    exact (f_equal (fun j => match j with json.Object ms => ms | _ => [] end)
             E).
Qed.

(** X5: the struct with the cache period serializes to the members of its
    embedded struct followed by [virtualRetrievalCachePeriodSecs], which is
    always there, 0 included; every other name is looked up as in the
    embedded struct. *)
Theorem with_cache_period_members
    (p : VirtualRepositoryBaseParamsWithRetrievalCachePeriodSecs) :
  let j := json.Marshal
             (VirtualRepositoryBaseParamsWithRetrievalCachePeriodSecs_fields
                p) in
  let jb := json.Marshal (VirtualRepositoryBaseParams_fields (Base p)) in
  j = json.Object
        (json.members (VirtualRepositoryBaseParams_fields (Base p)) ++
         [ ("virtualRetrievalCachePeriodSecs",
            json.Number (VirtualRetrievalCachePeriodSecs p)) ]) /\
  json.member "virtualRetrievalCachePeriodSecs" j =
    Some (json.Number (VirtualRetrievalCachePeriodSecs p)) /\
  json.member "virtualRetrievalCachePeriodSecs" jb = None /\
  (forall k : string,
     k <> "virtualRetrievalCachePeriodSecs" ->
     json.member k j = json.member k jb).
Proof.
  cbv zeta. unfold json.Marshal. rewrite members_with_cache_period.
  assert (F : json.assoc "virtualRetrievalCachePeriodSecs"
                (json.members (VirtualRepositoryBaseParams_fields (Base p))) =
              None).
  { apply assoc_members_fresh. apply (bool_decide_unpack _).
    vm_compute. exact I. }
  split; [reflexivity|]. unfold json.member. split; [|split; [exact F|]].
  - rewrite assoc_app, F. reflexivity.
  - intros k Hk. rewrite assoc_app.
    destruct (json.assoc k _); [reflexivity|]. simpl.
    by rewrite decide_False.
Qed.

(** X9: under a tag with [omitempty] the serialized parameters never carry
    an empty value: no empty string, no [false], no 0, no [null] and no
    empty array. *)
Theorem omitempty_never_emits_empty
    (p : VirtualRepositoryBaseParamsWithRetrievalCachePeriodSecs)
    (f : json.field) (v : value) :
  json.omitempty f = true -> json.isEmptyValue v = true ->
  (f ∈ VirtualRepositoryBaseParams_fields (Base p) ->
   json.member (json.name f)
     (json.Marshal (VirtualRepositoryBaseParams_fields (Base p))) <>
   Some (json.encode v)) /\
  (f ∈ VirtualRepositoryBaseParamsWithRetrievalCachePeriodSecs_fields p ->
   json.member (json.name f)
     (json.Marshal
        (VirtualRepositoryBaseParamsWithRetrievalCachePeriodSecs_fields p)) <>
   Some (json.encode v)).
Proof.
  intros Ho Hv. split; intros Hin.
  - by apply member_never_empty; [apply base_tags_NoDup|..].
  - by apply member_never_empty; [apply with_cache_tags_NoDup|..].
Qed.

Lemma omitempty_never_emits_empty_witness :
  json.member "artifactoryRequestsCanRetrieveRemoteArtifacts"
    (json.Marshal
       (VirtualRepositoryBaseParamsWithRetrievalCachePeriodSecs_fields
          sample.zero)) <> Some (json.Bool false).
Proof.
  apply (proj2 (omitempty_never_emits_empty sample.zero
                  (json.mkField
                     "artifactoryRequestsCanRetrieveRemoteArtifacts" true
                     (VBool false))
                  (VBool false) eq_refl eq_refl)).
  in_fields.
Defined.

(** The coercion at work: a byte that starts no valid encoding becomes the
    replacement rune, one for each such byte, and valid text is kept. *)
Example coerce_invalid_byte :
  json.coerce (String (Ascii.ascii_of_N 255) "a") =
  (json.RuneError ++ "a")%string.
Proof. reflexivity. Qed.

Example coerce_truncated_rune :
  json.coerce (String (Ascii.ascii_of_N 226) (String (Ascii.ascii_of_N 130) "a")) =
  (json.RuneError ++ json.RuneError ++ "a")%string.
Proof. reflexivity. Qed.

Example coerce_valid_rune :
  json.coerce (String (Ascii.ascii_of_N 195) (String (Ascii.ascii_of_N 169) "a")) =
  String (Ascii.ascii_of_N 195) (String (Ascii.ascii_of_N 169) "a").
Proof. reflexivity. Qed.

(** ** More on the mapper *)

Lemma package_types_plain (t : string) :
  t ∈ VirtualRepoTypesLikeGeneric ++
      VirtualRepoTypesLikeGenericWithRetrievalCachePeriodSecs ->
  t <> "" /\ json.coerce t = t.
Proof.
  assert (F : Forall (fun t => t <> "" /\ json.coerce t = t)
    (VirtualRepoTypesLikeGeneric ++
     VirtualRepoTypesLikeGenericWithRetrievalCachePeriodSecs))
    by (repeat constructor; discriminate).
  rewrite Forall_forall in F. apply F.
Qed.

Section mapper_serialized.

Context {D : Type} `{!util.ResourceData D}.
Variable reset : D -> string -> string.

(** X6: both mappers are determined by thirteen reads of the accessor, the
    reset-aware one among them: accessors on which these reads agree are
    mapped to equal parameters, whatever else they hold, the value under
    [package_type] included. *)
Theorem Unpack_determined_by_reads (d1 d2 : D) (packageType : string) :
  same_reads reset d1 d2 ->
  UnpackBaseVirtRepo reset d1 packageType =
  UnpackBaseVirtRepo reset d2 packageType /\
  UnpackBaseVirtRepoWithRetrievalCachePeriodSecs reset d1 packageType =
  UnpackBaseVirtRepoWithRetrievalCachePeriodSecs reset d2 packageType.
Proof.
  intros (Hs & Hset & Hbool & Hlist & Hreset & Hint).
  rewrite Forall_forall in Hs.
  unfold UnpackBaseVirtRepoWithRetrievalCachePeriodSecs, UnpackBaseVirtRepo.
  cbv zeta. rewrite Hset, Hbool, Hlist, Hreset, Hint.
  rewrite (Hs "key"), (Hs "project_key"), (Hs "includes_pattern"),
    (Hs "excludes_pattern"), (Hs "repo_layout_ref"), (Hs "description"),
    (Hs "notes") by (repeat first [apply list_elem_of_here
                                  | apply list_elem_of_further]).
  split; reflexivity.
Qed.

(** X8: for a package type of either table, the serialized parameters carry
    it under [packageType] and carry virtual under [rclass], whatever the
    accessor holds. *)
Theorem listed_package_type_serialized (d : D) (packageType : string) :
  packageType ∈ VirtualRepoTypesLikeGeneric ++
                VirtualRepoTypesLikeGenericWithRetrievalCachePeriodSecs ->
  let j := json.Marshal (VirtualRepositoryBaseParams_fields
                           (UnpackBaseVirtRepo reset d packageType)) in
  json.member "packageType" j = Some (json.Str packageType) /\
  json.member "rclass" j = Some (json.Str "virtual").
Proof.
  intros Hin. cbv zeta. apply package_types_plain in Hin as [Hne Hplain].
  set (bp := UnpackBaseVirtRepo reset d packageType). split.
  - pose proof (member_field (VirtualRepositoryBaseParams_fields bp)
                  (json.mkField "packageType" true
                     (VString (PackageType bp)))
                  (base_tags_NoDup bp) ltac:(in_fields)) as A.
    cbn [json.name json.omitempty json.val andb json.encode] in A.
    rewrite isEmptyValue_VString in A. rewrite A.
    change (PackageType bp) with packageType.
    by rewrite bool_decide_eq_false_2, Hplain.
  - exact (member_field (VirtualRepositoryBaseParams_fields bp)
             (json.mkField "rclass" false (VString (Rclass bp)))
             (base_tags_NoDup bp) ltac:(in_fields)).
Qed.

End mapper_serialized.

Lemma Unpack_determined_by_reads_witness :
  util.GetString sample.libs "package_type" false <>
  util.GetString libs_docker "package_type" false /\
  UnpackBaseVirtRepoWithRetrievalCachePeriodSecs config.plain sample.libs
    "npm" =
  UnpackBaseVirtRepoWithRetrievalCachePeriodSecs config.plain libs_docker
    "npm".
Proof.
  split; [discriminate|].
  apply (Unpack_determined_by_reads config.plain sample.libs libs_docker).
  unfold same_reads. repeat split. repeat constructor.
Defined.

Lemma listed_package_type_serialized_witness :
  json.member "packageType"
    (json.Marshal (VirtualRepositoryBaseParams_fields
       (UnpackBaseVirtRepo config.plain sample.libs "npm"))) =
  Some (json.Str "npm").
Proof.
  apply (listed_package_type_serialized config.plain sample.libs "npm").
  apply (bool_decide_unpack _). vm_compute. exact I.
Defined.

(** ** More on the descriptor table *)

Section table_consistency.

Variable validator_ProjectKey : schema.SchemaValidateDiagFunc.
Variable repository_ValidateRepoLayoutRefSchemaOverride
  : schema.SchemaValidateDiagFunc.
Variable schema_HashString : schema.SchemaSetFunc.

(** X7: every descriptor of the table is consistent: exactly one of required,
    optional and computed; a default only when optional and of the
    attribute's type; an element descriptor of strings on the list and the
    set and nowhere else; an item bound and a hash only there; at most one
    validator, and only on a scalar.  The attributes that force a new
    resource are [key] and [package_type] and no other. *)
Theorem BaseVirtualRepoSchema_consistent :
  map_Forall
    (fun k s =>
       consistent s = true /\
       schema.ForceNew s = bool_decide (k ∈ ["key"; "package_type"]))
    (BaseVirtualRepoSchema validator_ProjectKey
       repository_ValidateRepoLayoutRefSchemaOverride schema_HashString).
Proof.
  intros k s Hks. apply table_lookup in Hks.
  unfold BaseVirtualRepoSchema_entries in Hks.
  repeat (apply elem_of_cons in Hks as [[= -> ->]|Hks];
          [split; reflexivity|]).
  by apply elem_of_nil in Hks.
Qed.

End table_consistency.
